(** * LyricsGenius: the request sender and the token guard

    A shallow embedding of [lyricsgenius/api/base.py]: the class [Sender]
    ([__init__], [_make_request]) and the decorator [check_token].

    Python objects are modelled as follows.
    - The session headers (a [dict] from [str] to [str]) are a
      [gmap string string]; [dict.pop] is a lookup followed by a delete.
    - Values that travel through the sender (parsed JSON bodies, keyword
      arguments, return values) are the inductive type [value].
    - Numbers of seconds ([timeout], [sleep_time], [_SLEEP_MIN]) are
      rationals: every finite Python [int] or [float] is one, and the
      only operation the sender applies to them is the comparison made
      by [max], which returns one of its arguments unrounded.
    - A method of [Sender] is a computation [M A]: it receives the
      sender, and yields the sender after the call, the list of
      externally visible events in order, and either a returned value or
      a raised exception. *)

From Stdlib Require Import ZArith QArith Ascii String.
From stdpp Require Import base strings gmap list pretty.

Set Warnings "-register-all".
Local Open Scope string_scope.
Local Open Scope Z_scope.

(** ** Python values *)

Inductive value : Type :=
  | VNone
  | VBool (b : bool)
  | VInt (z : Z)
  | VFloat (q : Q)
  | VStr (s : string)
  | VList (l : list value)
  | VDict (d : list (string * value)).

(** Exceptions that can leave the code of [base.py]. The arguments are
    those given to the exception's constructor. *)
Inductive exn : Type :=
  | Timeout (msg : string)
  | HTTPError (status_code : Z) (msg : string)
  | AssertionError (msg : string)
  | TokenRequiredError (msg : option string)
  | KeyError (key : string)
  | TypeError
  | AttributeError
  | JSONDecodeError
  | TransportError (name msg : string).

Inductive outcome (A : Type) : Type :=
  | Return (a : A)
  | Raise (e : exn).
Arguments Return {A} a.
Arguments Raise {A} e.

#[global] Instance outcome_ret : MRet outcome := @Return.
#[global] Instance outcome_bind : MBind outcome := λ A B k o,
  match o with
  | Return a => k a
  | Raise e => Raise e
  end.

(** [dict] lookup by key; the first binding of a key is the one that
    counts (a parsed JSON object has each key once). *)
Fixpoint dict_get (k : string) (d : list (string * value)) : option value :=
  match d with
  | [] => None
  | (k', v) :: d' => if String.eqb k k' then Some v else dict_get k d'
  end.

(** Truth value of an object, as tested by [if x] and [x if c else y]. *)
Definition truthy (v : value) : bool :=
  match v with
  | VNone => false
  | VBool b => b
  | VInt z => negb (z =? 0)
  | VFloat q => negb (Qeq_bool q 0)
  | VStr s => negb (String.eqb s "")
  | VList l => match l with [] => false | _ => true end
  | VDict d => match d with [] => false | _ => true end
  end.

(** [v.get(k)]: only a [dict] has the method. *)
Definition py_get (v : value) (k : string) : outcome value :=
  match v with
  | VDict d => Return (default VNone (dict_get k d))
  | _ => Raise AttributeError
  end.

(** [v[k]] for a [str] key [k]. *)
Definition py_subscript (v : value) (k : string) : outcome value :=
  match v with
  | VDict d =>
      match dict_get k d with
      | Some x => Return x
      | None => Raise (KeyError k)
      end
  | _ => Raise TypeError
  end.

Definition is_substring (pat s : string) : bool :=
  match String.index 0 pat s with
  | Some _ => true
  | None => false
  end.

(** [k in v] for a [str] [k]: key membership in a [dict], element
    membership in a [list], substring test on a [str]; the other values
    are not containers. *)
Definition py_in (k : string) (v : value) : outcome bool :=
  match v with
  | VDict d => Return (match dict_get k d with Some _ => true | None => false end)
  | VList l =>
      Return (existsb (λ x, match x with VStr s => String.eqb s k | _ => false end) l)
  | VStr s => Return (is_substring k s)
  | _ => Raise TypeError
  end.

(** [max(a, b)]: the first argument is kept unless the second is
    strictly greater. *)
Definition py_max (a b : Q) : Q :=
  if Qle_bool b a then a else b.

Definition newline : string := String (ascii_of_nat 10) "".

(** [str.lower] on the ASCII letters. *)
Definition lower_char (c : ascii) : ascii :=
  let n := nat_of_ascii c in
  if (65 <=? n)%nat && (n <=? 90)%nat then ascii_of_nat (n + 32) else c.

Fixpoint lower (s : string) : string :=
  match s with
  | EmptyString => EmptyString
  | String c s' => String (lower_char c) (lower s')
  end.

(** ** The HTTP layer (the [requests] library) *)

(** What [Session.request] is called with. *)
Record Request : Type := mkRequest {
  req_method : string;
  req_uri : string;
  req_timeout : Q;
  req_params : list (string * value);
  req_kwargs : gmap string value;
  req_headers : gmap string string  (* the session headers at the time of the call *)
}.

(** A [requests.Response]: [body] is what [response.json()] yields,
    [None] when the body is not JSON. *)
Record Response : Type := mkResponse {
  status_code : Z;
  reason : string;
  url : string;
  body : option value
}.

(** How the call [self._session.request(...)] ends: with a response,
    with a [Timeout] (or a subclass) whose [str] is [description], or
    with another exception of the transport (a connection error, a
    rejected argument), which is neither a [Timeout] nor an
    [HTTPError]. *)
Inductive net_outcome : Type :=
  | NetResponse (r : Response)
  | NetTimeout (description : string)
  | NetError (name msg : string).

(** [Response.raise_for_status] of [requests]: it raises [HTTPError] for
    the statuses 400 to 599 and does nothing for the others. The result
    is the [str] of the exception raised, if any. *)
Definition raise_for_status (r : Response) : option string :=
  if (400 <=? status_code r) && (status_code r <? 500) then
    Some (pretty (status_code r) +:+ " Client Error: " +:+ reason r
          +:+ " for url: " +:+ url r)
  else if (500 <=? status_code r) && (status_code r <? 600) then
    Some (pretty (status_code r) +:+ " Server Error: " +:+ reason r
          +:+ " for url: " +:+ url r)
  else None.

Definition json (r : Response) : outcome value :=
  match body r with
  | Some v => Return v
  | None => Raise JSONDecodeError
  end.

(** ** The sender *)

Record Sender : Type := mkSender {
  headers : gmap string string;   (* self._session.headers *)
  access_token : option string;
  response_format : string;
  timeout : Q;
  sleep_time : Q
}.

Definition _SLEEP_MIN : Q := 2 # 10.
Definition API_ROOT : string := "https://api.genius.com/".
Definition PUBLIC_API_ROOT : string := "https://genius.com/api/".

(** [Sender.__init__]; the defaults of the Python signature ([None],
    ['plain'], [5], [0.5]) are for the caller to supply. *)
Definition __init__ (token : option string) (format : string)
    (timeout_ sleep_time_ : Q) : Sender :=
  let h : gmap string string :=
    <["User-Agent" := "https://github.com/johnwmillr/LyricsGenius"]>
      (<["application" := "LyricsGenius"]> ∅) in
  {| headers := match token with
                | Some t => <["authorization" := "Bearer " +:+ t]> h
                | None => h
                end;
     access_token := token;
     response_format := lower format;
     timeout := timeout_;
     sleep_time := sleep_time_ |}.

(** Externally visible events, in the order in which they happen. *)
Inductive event : Type :=
  | EvRequest (r : Request)       (* self._session.request(...) *)
  | EvSleep (seconds : Q)         (* time.sleep(seconds) *)
  | EvCall (name : string) (args : list value) (kwargs : gmap string value).
                                  (* func(self, *args, **kwargs) *)

Record run (A : Type) : Type := Run {
  final : Sender;
  trace : list event;
  result : outcome A
}.
Arguments Run {A} final trace result.
Arguments final {A} r.
Arguments trace {A} r.
Arguments result {A} r.

Definition M (A : Type) : Type := Sender → run A.

Definition ret {A} (a : A) : M A := λ s, Run s [] (Return a).

Definition raise {A} (e : exn) : M A := λ s, Run s [] (Raise e).

Definition bind {A B} (m : M A) (k : A → M B) : M B := λ s,
  match m s with
  | Run s1 t1 (Return a) =>
      match k a s1 with
      | Run s2 t2 o => Run s2 (t1 ++ t2) o
      end
  | Run s1 t1 (Raise e) => Run s1 t1 (Raise e)
  end.

#[global] Instance M_ret : MRet M := @ret.
#[global] Instance M_bind : MBind M := λ A B k m, bind m k.

Definition lift {A} (o : outcome A) : M A := λ s, Run s [] o.
Definition self {A} (f : Sender → A) : M A := λ s, Run s [] (Return (f s)).
Definition emit (e : event) : M unit := λ s, Run s [e] (Return tt).

Definition set_headers (h : gmap string string) (s : Sender) : Sender :=
  {| headers := h; access_token := access_token s;
     response_format := response_format s;
     timeout := timeout s; sleep_time := sleep_time s |}.

(** [self._session.headers.pop(k, None)] *)
Definition headers_pop (k : string) : M (option string) := λ s,
  Run (set_headers (delete k (headers s)) s) [] (Return (headers s !! k)).

(** [self._session.headers[k] = v] *)
Definition headers_set (k v : string) : M unit := λ s,
  Run (set_headers (<[k := v]> (headers s)) s) [] (Return tt).

Definition time_sleep (seconds : Q) : M unit := emit (EvSleep seconds).

Section Sender_methods.

(** [str(v)] for a value [v] that is not a [str]: the builtin is not
    part of the library, and no property below depends on how it
    renders numbers and containers. *)
Variable py_str : value → string.

(** ['{}'.format(v)] *)
Definition format_value (v : value) : string :=
  match v with
  | VStr s => s
  | _ => py_str v
  end.

(** The [except HTTPError as e] clause: [error] is [str(e)], and
    [response] is [e.response]. The clause ends in a [raise]. *)
Definition http_error_handler {A} (response : Response) (error : string) : outcome A :=
  res ← json response;
  meta ← py_get res "meta";
  description ← (if truthy meta then
                   m ← py_subscript res "meta";
                   py_subscript m "message"
                 else py_get res "error_description");
  let error := error +:+ (if truthy description
                          then newline +:+ format_value description
                          else "") in
  Raise (HTTPError (status_code response) error).

Definition _make_request (net : Request → net_outcome) (path method : string)
    (params_ : option (list (string * value))) (public_api : bool)
    (kwargs : gmap string value) : M value :=
  '(uri, header) ← (if public_api then
                      header ← headers_pop "authorization";
                      mret (PUBLIC_API_ROOT, header)
                    else mret (API_ROOT, None));
  let uri := uri +:+ path in
  let params_ := match params_ with
                 | Some ((_ :: _) as p) => p
                 | _ => []
                 end in
  (* Make the request *)
  session_headers ← self headers;
  timeout_ ← self timeout;
  let req := mkRequest method uri timeout_ params_ kwargs session_headers in
  emit (EvRequest req);;
  response ← match net req with
             | NetResponse response =>
                 match raise_for_status response with
                 | None => mret response
                 | Some error => lift (http_error_handler response error)
                 end
             | NetTimeout e =>
                 raise (Timeout ("Request timed out:" +:+ newline +:+ e))
             | NetError name msg => raise (TransportError name msg)
             end;
  match header with
  | Some (String _ _ as h) => headers_set "authorization" h
  | _ => mret tt
  end;;
  (* Enforce rate limiting *)
  sleep_time_ ← self sleep_time;
  time_sleep (py_max _SLEEP_MIN sleep_time_);;
  if status_code response =? 200 then
    res ← lift (json response);
    has_response ← lift (py_in "response" res);
    if has_response : bool then lift (py_subscript res "response") else mret res
  else if status_code response =? 204 then
    mret (VInt 204)
  else
    raise (AssertionError "Response status code was neither 200, nor 204!").

(** The senders a program can hold: one built by the constructor, and
    then used for any number of requests, whatever the network does. *)
Inductive reachable : Sender → Prop :=
  | reachable_init token format timeout_ sleep_time_ :
      reachable (__init__ token format timeout_ sleep_time_)
  | reachable_request s net path method params_ public_api kwargs :
      reachable s →
      reachable (final (_make_request net path method params_ public_api kwargs s)).

End Sender_methods.

(** ** The token guard *)

Definition public_api_msg : string :=
  "Using this method with the developers API needs an access token."
  +:+ " Get an access token or"
  +:+ " use the public API by setting"
  +:+ " public_api=True in method parameters.".

(** A method that [check_token] decorates: its name, the names its code
    object declares ([func.__code__.co_varnames]), and what calling it
    as [func(self, *args, **kwargs)] does. *)
Record Func : Type := mkFunc {
  __name__ : string;
  co_varnames : list string;
  func_body : list value → gmap string value → M value
}.

(** The call [func(self, *args, **kwargs)]. *)
Definition invoke (func : Func) (args : list value) (kwargs : gmap string value) : M value :=
  emit (EvCall (__name__ func) args kwargs);;
  func_body func args kwargs.

(** [kwargs.get("public_api", False) is False] *)
Definition is_False (v : value) : bool :=
  match v with
  | VBool false => true
  | _ => false
  end.

(** [check_token(func)], that is the function [wrapper]. *)
Definition check_token (func : Func) (args : list value)
    (kwargs : gmap string value) : M value :=
  token ← self access_token;
  match token with
  | None =>
      let public_method := bool_decide ("public_api" ∈ co_varnames func) in
      if public_method then
        if is_False (default (VBool false) (kwargs !! "public_api")) then
          raise (TokenRequiredError (Some public_api_msg))
        else mret tt
      else raise (TokenRequiredError None)
  | Some _ => mret tt
  end;;
  invoke func args kwargs.

(** ** Derived notions, used to state the properties *)

(** The request that [_make_request] hands to the session (lines 45 to
    61 of [base.py]): the root is chosen by [public_api], the path is
    appended to it, a missing or empty [params_] becomes the empty
    mapping, and on the public route the session no longer holds the
    [authorization] header when the request is made. *)
Definition sent_request (s : Sender) (path method : string)
    (params_ : option (list (string * value))) (public_api : bool)
    (kwargs : gmap string value) : Request :=
  mkRequest method
    ((if public_api then PUBLIC_API_ROOT else API_ROOT) +:+ path)
    (timeout s)
    (match params_ with Some ((_ :: _) as p) => p | _ => [] end)
    kwargs
    (if public_api then delete "authorization" (headers s) else headers s).

(** The sender while the request is in flight. *)
Definition in_flight (public_api : bool) (s : Sender) : Sender :=
  if public_api then set_headers (delete "authorization" (headers s)) s else s.

(** The sender once lines 75 and 76 have run. *)
Definition restored (public_api : bool) (s : Sender) : Sender :=
  if public_api then
    match headers s !! "authorization" with
    | Some (String _ _ as h) =>
        set_headers (<["authorization" := h]> (delete "authorization" (headers s))) s
    | _ => set_headers (delete "authorization" (headers s)) s
    end
  else s.

(** Lines 81 to 87: what the call yields for a response that raised
    nothing. *)
Definition final_branch (response : Response) : outcome value :=
  if status_code response =? 200 then
    match json response with
    | Return res =>
        match py_in "response" res with
        | Return true => py_subscript res "response"
        | Return false => Return res
        | Raise e => Raise e
        end
    | Raise e => Raise e
    end
  else if status_code response =? 204 then Return (VInt 204)
  else Raise (AssertionError "Response status code was neither 200, nor 204!").

(** A rendering of [None], the booleans and the integers, for the
    examples that need a concrete [str]; the examples render no float
    and no container. *)
Definition str_atoms (v : value) : string :=
  match v with
  | VNone => "None"
  | VBool true => "True"
  | VBool false => "False"
  | VInt z => pretty z
  | VStr s => s
  | _ => ""
  end.

(** The header, when the session has it, is the one the constructor
    wrote: ["Bearer "] followed by the access token. *)
Definition bearer_inv (s : Sender) : Prop :=
  ∀ v, headers s !! "authorization" = Some v →
       ∃ t, access_token s = Some t ∧ v = "Bearer " +:+ t.

(** What line 72 appends to the message for a given description. *)
Definition description_suffix (py_str : value → string) (description : value) : string :=
  if truthy description then newline +:+ format_value py_str description else "".

(** ** Example data

    Concrete senders, responses and guarded operations, on which the
    properties below are exercised. *)

Definition example_sender : Sender := __init__ (Some "token") "plain" 5 (1 # 2).

Definition accepted : Response :=
  mkResponse 202 "Accepted" "https://genius.com/api/songs/1" (Some (VDict [])).

Definition no_content : Response :=
  mkResponse 204 "No Content" "https://api.genius.com/songs/1" None.

Definition enveloped : Response :=
  mkResponse 200 "OK" "https://api.genius.com/songs/1"
    (Some (VDict [("meta", VDict [("status", VInt 200)]);
                  ("response", VDict [("a", VInt 1)])])).

Definition bare : Response :=
  mkResponse 200 "OK" "https://genius.com/api/songs/1"
    (Some (VDict [("a", VInt 1)])).

Definition forbidden : Response :=
  mkResponse 403 "Forbidden" "https://api.genius.com/songs/1"
    (Some (VDict [("meta", VDict [("status", VInt 403);
                                  ("message", VStr "invalid token")])])).

Definition not_modified : Response :=
  mkResponse 304 "Not Modified" "https://api.genius.com/songs/1" None.

Definition server_error_no_message : Response :=
  mkResponse 500 "Internal Server Error" "https://api.genius.com/songs/1"
    (Some (VDict [("meta", VDict [("status", VInt 500)])])).

Definition bad_gateway_html : Response :=
  mkResponse 502 "Bad Gateway" "https://api.genius.com/songs/1" None.

Definition anonymous_sender : Sender := __init__ None "plain" 5 (1 # 2).

(** A guarded operation with the public fallback, in the manner of
    [def song(self, song_id, text_format=None, public_api=False)]. *)
Definition song_like : Func :=
  mkFunc "song"
    ["self"; "song_id"; "text_format"; "public_api"; "endpoint"; "params"]
    (λ args kwargs,
       _make_request str_atoms (λ _, NetResponse bare) "songs/1" "GET" None
         (truthy (default (VBool false) (kwargs !! "public_api"))) ∅).

(** A guarded operation without it, in the manner of
    [def account(self, text_format=None)]. *)
Definition account_like : Func :=
  mkFunc "account" ["self"; "text_format"; "endpoint"; "params"]
    (λ args kwargs,
       _make_request str_atoms (λ _, NetResponse enveloped) "account" "GET"
         None false ∅).

(** ** Further notions for the sender *)

Definition is_request (e : event) : bool :=
  match e with
  | EvRequest _ => true
  | _ => false
  end.

Definition is_sleep (e : event) : bool :=
  match e with
  | EvSleep _ => true
  | _ => false
  end.

(** [later py_str s s']: the sender [s] has become [s'] through some
    calls of [_make_request], whatever their arguments and whatever the
    network did. *)
Inductive later (py_str : value → string) (s : Sender) : Sender → Prop :=
  | later_now : later py_str s s
  | later_request s' net path method params_ public_api kwargs :
      later py_str s s' →
      later py_str s
        (final (_make_request py_str net path method params_ public_api kwargs s')).

(** A value on which [in] raises: it is neither a [dict], a [list] nor a
    [str]. *)
Definition not_container (v : value) : bool :=
  match v with
  | VNone | VBool _ | VInt _ | VFloat _ => true
  | _ => false
  end.

Definition is_dict (v : value) : bool :=
  match v with
  | VDict _ => true
  | _ => false
  end.

(** The ASCII characters. On a text made of them a Python [str] and the
    string of its characters agree on [len], on slices and on
    [str.lower]. *)
Definition is_ascii (c : ascii) : bool := (nat_of_ascii c <? 128)%nat.

(** The ASCII capital letters, which [lower] rewrites. *)
Definition is_upper (c : ascii) : bool :=
  (65 <=? nat_of_ascii c)%nat && (nat_of_ascii c <=? 90)%nat.

Fixpoint string_forall (P : ascii → bool) (s : string) : bool :=
  match s with
  | EmptyString => true
  | String c s' => P c && string_forall P s'
  end.

Definition ok_not_json : Response :=
  mkResponse 200 "OK" "https://api.genius.com/songs/1" None.

(** ** Songs ([lyricsgenius/types/song.py])

    A Python [str] is the string of its characters, one [ascii] each:
    [len], slices and [replace] work character by character, and
    [lower] rewrites the letters A to Z, which is what [str.lower] does
    on ASCII text. *)

Fixpoint char_in (c : ascii) (chars : string) : bool :=
  match chars with
  | EmptyString => false
  | String c' chars' => Ascii.eqb c c' || char_in c chars'
  end.

(** [s.lstrip(chars)]: the leading characters that occur in [chars] are
    dropped. *)
Fixpoint str_lstrip (chars s : string) : string :=
  match s with
  | EmptyString => EmptyString
  | String c s' => if char_in c chars then str_lstrip chars s' else s
  end.

(** [s.replace(old, new)] for a non-empty [old]: the occurrences of
    [old] are found from left to right without overlap; [skip] counts
    the characters of the current occurrence still to pass over. *)
Fixpoint replace_go (old new s : string) (skip : nat) : string :=
  match s with
  | EmptyString => EmptyString
  | String c s' =>
      match skip with
      | S n => replace_go old new s' n
      | O =>
          if String.prefix old s
          then new +:+ replace_go old new s' (String.length old - 1)
          else String c (replace_go old new s' 0)
      end
  end.

(** [s.replace("", new)]: [new] goes before every character and at the
    end. *)
Fixpoint insert_around (new s : string) : string :=
  match s with
  | EmptyString => new
  | String c s' => new +:+ String c (insert_around new s')
  end.

Definition str_replace (old new s : string) : string :=
  match old with
  | EmptyString => insert_around new s
  | String _ _ => replace_go old new s 0
  end.

Definition dquote : string := String (ascii_of_nat 34) "".

(** The attributes of a [Song] that the methods below read; the
    docstring of the class types them as [str]. *)
Record Song : Type := mkSong {
  title : string;
  artist : string;
  lyrics : string
}.

(** What [song.py] uses and does not define: [sanitize_filename] of
    [lyricsgenius.utils], the methods of the base class [BaseEntity]
    that [to_dict], [to_json] and [to_text] delegate to, the file test
    [os.path.isfile] and the answer typed at the prompt of [input]. *)
Record World : Type := mkWorld {
  sanitize_filename : string → string;
  BaseEntity_to_dict : Song → gmap string value;
  BaseEntity_to_json :
    gmap string value → option string → bool → bool → outcome value;
  BaseEntity_to_text : string → option string → bool → bool → outcome value;
  isfile : string → bool;
  input : string → outcome string
}.

(** What a method of [Song] does to the outside, in order. *)
Inductive io_event : Type :=
  | IoIsFile (path : string)
  | IoInput (prompt : string)
  | IoPrint (text : string)
  | IoToJson (data : gmap string value) (filename : option string)
      (sanitize ensure_ascii : bool)
  | IoToText (data : string) (filename : option string)
      (binary_encoding sanitize : bool).

Definition IO (A : Type) : Type := (list io_event * outcome A)%type.

#[global] Instance IO_ret : MRet IO := λ A a, ([], Return a).
#[global] Instance IO_bind : MBind IO := λ A B k m,
  match m with
  | (t1, Return a) => match k a with (t2, o) => (app t1 t2, o) end
  | (t1, Raise e) => (t1, Raise e)
  end.

Definition io_raise {A} (e : exn) : IO A := ([], Raise e).
Definition print (text : string) : IO unit := ([IoPrint text], Return tt).

(** [Song.to_dict] *)
Definition to_dict (w : World) (self : Song) : gmap string value :=
  let body := BaseEntity_to_dict w self in
  <["lyrics" := VStr (lyrics self)]> body.

(** [Song.to_json] *)
Definition to_json (w : World) (self : Song) (filename : option string)
    (sanitize ensure_ascii : bool) : IO value :=
  let data := to_dict w self in
  ([IoToJson data filename sanitize ensure_ascii],
   BaseEntity_to_json w data filename sanitize ensure_ascii).

(** [Song.to_text] *)
Definition to_text (w : World) (self : Song) (filename : option string)
    (binary_encoding sanitize : bool) : IO value :=
  let data := lyrics self in
  ([IoToText data filename binary_encoding sanitize],
   BaseEntity_to_text w data filename binary_encoding sanitize).

(** Lines 188 to 197 of [save_lyrics], "Determine the filename", for
    the extension already brought to its normal form. *)
Definition determine_filename (w : World) (self : Song) (filename : option string)
    (extension : string) (sanitize : bool) : string :=
  let filename :=
    match filename with
    | Some (String _ _ as filename) =>
        fold_left (λ filename ext, str_replace ("." +:+ ext) "" filename)
          ["txt"; "TXT"; "json"; "JSON"] filename
        +:+ "." +:+ extension
    | _ =>
        lower ("Lyrics_" +:+ str_replace " " "" (artist self) +:+ "_"
               +:+ str_replace " " "" (title self) +:+ "." +:+ extension)
    end in
  if sanitize then sanitize_filename w filename else filename.

(** [Song.save_lyrics] *)
Definition save_lyrics (w : World) (self : Song) (filename : option string)
    (extension : string)
    (overwrite binary_encoding ensure_ascii sanitize verbose : bool) : IO unit :=
  let extension := lower (str_lstrip "." extension) in
  if negb (String.eqb extension "json" || String.eqb extension "txt") then
    io_raise (AssertionError "extension must be JSON or TXT")
  else
    let filename := determine_filename w self filename extension sanitize in
    (* Check if file already exists *)
    write_file ← (if overwrite then mret true
                  else
                    ([IoIsFile filename],
                     Return (isfile w filename)) ≫= λ exists_ : bool,
                    if negb exists_ then mret true
                    else if verbose then
                      let msg := filename +:+ " already exists. Overwrite?"
                                 +:+ newline +:+ "(y/n): " in
                      answer ← ([IoInput msg], input w msg);
                      mret (String.eqb (lower answer) "y")
                    else mret false);
    if negb write_file then
      (* Exit if we won't be saving a file *)
      if verbose then print ("Skipping file save." +:+ newline) else mret tt
    else
      (* Save the lyrics to a file *)
      (if String.eqb extension "json"
       then to_json w self (Some filename) sanitize ensure_ascii
       else to_text w self (Some filename) binary_encoding sanitize);;
      if verbose
      then print ("Wrote " +:+ title self +:+ " to " +:+ filename +:+ ".")
      else mret tt.

(** [Song.__str__] *)
Definition __str__ (self : Song) : string :=
  let lyr := if (100 <? String.length (lyrics self))%nat
             then substring 0 100 (lyrics self) +:+ "..."
             else substring 0 100 (lyrics self) in
  dquote +:+ title self +:+ dquote +:+ " by " +:+ artist self +:+ ":" +:+ newline
  +:+ "    " +:+ str_replace newline (newline +:+ "    ") lyr.

(** Further notions for the songs. *)

Fixpoint dots (n : nat) : string :=
  match n with
  | O => EmptyString
  | S n' => String "." (dots n')
  end.

Definition is_write (e : io_event) : bool :=
  match e with
  | IoToJson _ _ _ _ | IoToText _ _ _ _ => true
  | _ => false
  end.

Fixpoint count_char (c : ascii) (s : string) : nat :=
  match s with
  | EmptyString => 0
  | String c' s' => (if Ascii.eqb c' c then 1 else 0) + count_char c s'
  end.

(** The one call by which [save_lyrics] writes the file [target], and
    what that call yields (lines 215 to 218). *)
Definition write_event (w : World) (self : Song) (target extension : string)
    (binary_encoding ensure_ascii sanitize : bool) : io_event :=
  if String.eqb extension "json"
  then IoToJson (to_dict w self) (Some target) sanitize ensure_ascii
  else IoToText (lyrics self) (Some target) binary_encoding sanitize.

Definition write_result (w : World) (self : Song) (target extension : string)
    (binary_encoding ensure_ascii sanitize : bool) : outcome value :=
  if String.eqb extension "json"
  then BaseEntity_to_json w (to_dict w self) (Some target) sanitize ensure_ascii
  else BaseEntity_to_text w (lyrics self) (Some target) binary_encoding sanitize.

(** The question asked before an existing file is overwritten. *)
Definition overwrite_prompt (target : string) : string :=
  target +:+ " already exists. Overwrite?" +:+ newline +:+ "(y/n): ".

(** Example songs and surroundings. *)

Definition example_song : Song :=
  mkSong "Blue in Green" "Miles Davis" "la la la".

Definition example_world (file_exists : bool) (answer : string) : World :=
  mkWorld (λ f, f)
    (λ self, {["title" := VStr (title self)]})
    (λ _ _ _ _, Return VNone)
    (λ _ _ _ _, Return VNone)
    (λ _, file_exists)
    (λ _, Return answer).

(** ** The shape of a call *)

Ltac unfold_M :=
  unfold mbind, M_bind, bind, mret, M_ret, ret, headers_pop, headers_set,
    self, time_sleep, emit, raise, lift;
  cbn [final trace result app headers timeout sleep_time access_token
       response_format set_headers].

Lemma set_headers_same s : set_headers (headers s) s = s.
Proof. by destruct s. Qed.

Section Shape.
Variable py_str : value → string.
Variable net : Request → net_outcome.
Variables path method : string.
Variable params_ : option (list (string * value)).
Variable public_api : bool.
Variable kwargs : gmap string value.
Variable s : Sender.

Let req := sent_request s path method params_ public_api kwargs.
Let call := _make_request py_str net path method params_ public_api kwargs s.

Lemma make_request_timeout e :
  net req = NetTimeout e →
  call = Run (in_flight public_api s) [EvRequest req]
             (Raise (Timeout ("Request timed out:" +:+ newline +:+ e))).
Proof.
  subst req call. unfold sent_request, _make_request, in_flight.
  destruct public_api; unfold_M; intros ->; reflexivity.
Qed.

Lemma make_request_transport_error name msg :
  net req = NetError name msg →
  call = Run (in_flight public_api s) [EvRequest req]
             (Raise (TransportError name msg)).
Proof.
  subst req call. unfold sent_request, _make_request, in_flight.
  destruct public_api; unfold_M; intros ->; reflexivity.
Qed.

Lemma http_error_handler_raises A B response error :
  ∃ e, http_error_handler (A:=A) py_str response error = Raise e
       ∧ http_error_handler (A:=B) py_str response error = Raise e.
Proof.
  unfold http_error_handler, mbind, outcome_bind.
  destruct (json response) as [res|]; [|eauto].
  destruct (py_get res "meta") as [meta|]; [|eauto].
  destruct (truthy meta).
  - destruct (py_subscript res "meta") as [m|]; [|eauto].
    destruct (py_subscript m "message"); eauto.
  - destruct (py_get res "error_description"); eauto.
Qed.

Lemma make_request_http_error response error :
  net req = NetResponse response →
  raise_for_status response = Some error →
  call = Run (in_flight public_api s) [EvRequest req]
             (http_error_handler py_str response error).
Proof.
  destruct (http_error_handler_raises Response value response error)
    as (e & E1 & E2).
  subst req call. unfold sent_request, _make_request, in_flight.
  destruct public_api; unfold_M; intros -> ->; rewrite E1, E2; reflexivity.
Qed.

Lemma make_request_no_error response :
  net req = NetResponse response →
  raise_for_status response = None →
  call = Run (restored public_api s)
             [EvRequest req; EvSleep (py_max _SLEEP_MIN (sleep_time s))]
             (final_branch response).
Proof.
  subst req call. unfold sent_request, _make_request, restored, final_branch.
  destruct public_api; unfold_M; intros -> ->;
    [destruct (headers s !! "authorization") as [[|c h]|]|];
    unfold_M;
    (destruct (status_code response =? 200);
     [destruct (json response) as [res|]; [|reflexivity];
      destruct (py_in "response" res) as [[]|]; [|reflexivity|reflexivity];
      destruct (py_subscript res "response"); reflexivity|]);
    destruct (status_code response =? 204); reflexivity.
Qed.

End Shape.

Arguments make_request_timeout {py_str net path method params_ public_api kwargs s e} _.
Arguments make_request_transport_error
  {py_str net path method params_ public_api kwargs s name msg} _.
Arguments make_request_http_error
  {py_str net path method params_ public_api kwargs s response error} _ _.
Arguments make_request_no_error
  {py_str net path method params_ public_api kwargs s response} _ _.

(** ** The [authorization] header of a reachable sender *)

Lemma init_bearer_inv token format timeout_ sleep_time_ :
  bearer_inv (__init__ token format timeout_ sleep_time_).
Proof.
  intros v. destruct token as [t|]; cbn [__init__ headers access_token].
  - rewrite lookup_insert_eq. intros [= <-]. eauto.
  - rewrite !lookup_insert_ne by done. by rewrite lookup_empty.
Qed.

Lemma in_flight_bearer_inv public_api s :
  bearer_inv s → bearer_inv (in_flight public_api s).
Proof.
  destruct public_api; [|done]. intros _ v.
  cbn [in_flight set_headers headers]. by rewrite lookup_delete_eq.
Qed.

Lemma restored_id public_api s :
  bearer_inv s → restored public_api s = s.
Proof.
  intros Hinv. destruct public_api; [|done]. unfold restored.
  destruct (headers s !! "authorization") as [v|] eqn:Hv.
  - destruct (Hinv v Hv) as (t & _ & ->).
    rewrite insert_delete_id by exact Hv. apply set_headers_same.
  - rewrite delete_id by exact Hv. apply set_headers_same.
Qed.

Lemma make_request_final py_str net path method params_ public_api kwargs s :
  final (_make_request py_str net path method params_ public_api kwargs s)
    = in_flight public_api s
  ∨ final (_make_request py_str net path method params_ public_api kwargs s)
    = restored public_api s.
Proof.
  destruct (net (sent_request s path method params_ public_api kwargs))
    as [response|e|name msg] eqn:Hnet.
  - destruct (raise_for_status response) as [error|] eqn:Hst.
    + left. by rewrite (make_request_http_error Hnet Hst).
    + right. by rewrite (make_request_no_error Hnet Hst).
  - left. by rewrite (make_request_timeout Hnet).
  - left. by rewrite (make_request_transport_error Hnet).
Qed.

Lemma reachable_bearer_inv py_str s : reachable py_str s → bearer_inv s.
Proof.
  induction 1 as [|s net path method params_ public_api kwargs _ IH].
  - apply init_bearer_inv.
  - destruct (make_request_final py_str net path method params_ public_api
                kwargs s) as [-> | ->].
    + by apply in_flight_bearer_inv.
    + by rewrite restored_id.
Qed.

Lemma py_max_spec a b :
  (a <= py_max a b)%Q ∧ (b <= py_max a b)%Q ∧ (py_max a b = a ∨ py_max a b = b).
Proof.
  unfold py_max. destruct (Qle_bool b a) eqn:E.
  - apply Qle_bool_iff in E. split; [apply Qle_refl|]. split; [done|by left].
  - split; [|split; [apply Qle_refl|by right]].
    apply Qlt_le_weak, Qnot_le_lt. intros H%Qle_bool_iff. congruence.
Qed.

(** ** Properties of [_make_request] *)

(** C7. A call with [public_api=False] leaves the sender, and so the
    session headers with their [authorization] entry, exactly as they
    were, whatever the network answers and whether the call returns or
    raises; the request goes to the authenticated root and carries the
    session headers unchanged. *)
Theorem private_call_leaves_headers py_str net path method params_ kwargs s :
  final (_make_request py_str net path method params_ false kwargs s) = s
  ∧ headers (final (_make_request py_str net path method params_ false kwargs s))
      !! "authorization" = headers s !! "authorization"
  ∧ (∃ rest,
       trace (_make_request py_str net path method params_ false kwargs s)
       = EvRequest (sent_request s path method params_ false kwargs) :: rest)
  ∧ req_uri (sent_request s path method params_ false kwargs) = API_ROOT +:+ path
  ∧ req_headers (sent_request s path method params_ false kwargs) = headers s.
Proof.
  destruct (net (sent_request s path method params_ false kwargs))
    as [response|e|name msg] eqn:Hnet.
  - destruct (raise_for_status response) as [error|] eqn:Hst.
    + rewrite (make_request_http_error Hnet Hst).
      cbn [final trace in_flight]. eauto 10.
    + rewrite (make_request_no_error Hnet Hst).
      cbn [final trace restored]. eauto 10.
  - rewrite (make_request_timeout Hnet).
    cbn [final trace in_flight]. eauto 10.
  - rewrite (make_request_transport_error Hnet).
    cbn [final trace in_flight]. eauto 10.
Qed.

(** C9. When the request ends in a timeout, the call raises [Timeout]
    with the message ["Request timed out:"], a line break, and the
    description of the original exception. *)
Theorem timeout_message py_str net path method params_ public_api kwargs s e :
  net (sent_request s path method params_ public_api kwargs) = NetTimeout e →
  result (_make_request py_str net path method params_ public_api kwargs s)
  = Raise (Timeout ("Request timed out:" +:+ newline +:+ e)).
Proof.
  intros Hnet. by rewrite (make_request_timeout Hnet).
Qed.

Lemma timeout_message_witness :
  result (_make_request str_atoms (λ _, NetTimeout "read timed out")
            "songs/1" "GET" None false ∅ example_sender)
  = Raise (Timeout ("Request timed out:" +:+ newline +:+ "read timed out")).
Proof. apply timeout_message. reflexivity. Defined.

(** C5. A response that raised nothing (its status is outside 400 to
    599) and whose status is neither 200 nor 204 makes the call raise
    [AssertionError]: that is the outcome the caller gets, after a
    single request and the pause. *)
Theorem unexpected_status_raises py_str net path method params_ public_api
    kwargs s response :
  net (sent_request s path method params_ public_api kwargs) = NetResponse response →
  raise_for_status response = None →
  status_code response ≠ 200 →
  status_code response ≠ 204 →
  result (_make_request py_str net path method params_ public_api kwargs s)
  = Raise (AssertionError "Response status code was neither 200, nor 204!")
  ∧ trace (_make_request py_str net path method params_ public_api kwargs s)
    = [EvRequest (sent_request s path method params_ public_api kwargs);
       EvSleep (py_max _SLEEP_MIN (sleep_time s))].
Proof.
  intros Hnet Hst H200 H204.
  rewrite (make_request_no_error Hnet Hst).
  cbn [result trace]. split; [|done]. unfold final_branch.
  destruct (Z.eqb_spec (status_code response) 200); [done|].
  by destruct (Z.eqb_spec (status_code response) 204).
Qed.

Lemma unexpected_status_raises_witness :
  result (_make_request str_atoms (λ _, NetResponse accepted)
            "songs/1" "GET" None false ∅ example_sender)
  = Raise (AssertionError "Response status code was neither 200, nor 204!")
  ∧ trace (_make_request str_atoms (λ _, NetResponse accepted)
             "songs/1" "GET" None false ∅ example_sender)
    = [EvRequest (sent_request example_sender "songs/1" "GET" None false ∅);
       EvSleep (py_max _SLEEP_MIN (sleep_time example_sender))].
Proof.
  apply (unexpected_status_raises str_atoms (λ _, NetResponse accepted)
           "songs/1" "GET" None false ∅ example_sender accepted);
    [reflexivity | reflexivity | discriminate | discriminate].
Defined.

(** C8. Whenever the call returns a value, it has slept once, after the
    request and before returning, for [max(_SLEEP_MIN, sleep_time)]
    seconds: one of the two numbers, at least the floor of 0.2 seconds
    and at least the configured [sleep_time]. *)
Theorem sleep_before_return py_str net path method params_ public_api kwargs s v :
  result (_make_request py_str net path method params_ public_api kwargs s)
    = Return v →
  trace (_make_request py_str net path method params_ public_api kwargs s)
  = [EvRequest (sent_request s path method params_ public_api kwargs);
     EvSleep (py_max _SLEEP_MIN (sleep_time s))]
  ∧ (_SLEEP_MIN == 2 # 10)%Q
  ∧ (_SLEEP_MIN <= py_max _SLEEP_MIN (sleep_time s))%Q
  ∧ (sleep_time s <= py_max _SLEEP_MIN (sleep_time s))%Q
  ∧ (py_max _SLEEP_MIN (sleep_time s) = _SLEEP_MIN
     ∨ py_max _SLEEP_MIN (sleep_time s) = sleep_time s).
Proof.
  destruct (py_max_spec _SLEEP_MIN (sleep_time s)) as (Hmin & Hst & Hor).
  destruct (net (sent_request s path method params_ public_api kwargs))
    as [response|e|name msg] eqn:Hnet.
  - destruct (raise_for_status response) as [error|] eqn:Hrs.
    + rewrite (make_request_http_error Hnet Hrs).
      destruct (http_error_handler_raises py_str value value response error)
        as (e & -> & _). discriminate.
    + rewrite (make_request_no_error Hnet Hrs).
      cbn [trace]. intros _. repeat split; try done.
  - rewrite (make_request_timeout Hnet). discriminate.
  - rewrite (make_request_transport_error Hnet). discriminate.
Qed.

Lemma sleep_before_return_witness :
  trace (_make_request str_atoms (λ _, NetResponse no_content)
           "songs/1" "DELETE" None false ∅ example_sender)
  = [EvRequest (sent_request example_sender "songs/1" "DELETE" None false ∅);
     EvSleep (py_max _SLEEP_MIN (sleep_time example_sender))]
  ∧ (_SLEEP_MIN == 2 # 10)%Q
  ∧ (_SLEEP_MIN <= py_max _SLEEP_MIN (sleep_time example_sender))%Q
  ∧ (sleep_time example_sender <= py_max _SLEEP_MIN (sleep_time example_sender))%Q
  ∧ (py_max _SLEEP_MIN (sleep_time example_sender) = _SLEEP_MIN
     ∨ py_max _SLEEP_MIN (sleep_time example_sender) = sleep_time example_sender).
Proof.
  apply (sleep_before_return str_atoms (λ _, NetResponse no_content)
           "songs/1" "DELETE" None false ∅ example_sender (VInt 204)).
  reflexivity.
Defined.



(** C4. On the success path: a 200 response whose body is a JSON object
    with the key ["response"] yields the value under that key; a 200
    response whose body is a JSON object without the key yields the
    whole parsed body; a 204 response yields the integer 204, whatever
    its body, parsable or not. *)
Theorem success_value py_str net path method params_ public_api kwargs s response :
  net (sent_request s path method params_ public_api kwargs) = NetResponse response →
  (status_code response = 200 →
   ∀ d v, body response = Some (VDict d) → dict_get "response" d = Some v →
     result (_make_request py_str net path method params_ public_api kwargs s)
     = Return v)
  ∧ (status_code response = 200 →
     ∀ d, body response = Some (VDict d) → dict_get "response" d = None →
       result (_make_request py_str net path method params_ public_api kwargs s)
       = Return (VDict d))
  ∧ (status_code response = 204 →
     result (_make_request py_str net path method params_ public_api kwargs s)
     = Return (VInt 204)).
Proof.
  intros Hnet.
  assert (status_code response = 200 ∨ status_code response = 204 →
          result (_make_request py_str net path method params_ public_api kwargs s)
          = final_branch response) as Hfinal.
  { intros Hst.
    rewrite (make_request_no_error Hnet); [done|].
    unfold raise_for_status. by destruct Hst as [-> | ->]. }
  split; [|split].
  - intros Hst d v Hbody Hkey. rewrite Hfinal by auto.
    unfold final_branch, json. rewrite Hst, Hbody. cbn. by rewrite Hkey.
  - intros Hst d Hbody Hkey. rewrite Hfinal by auto.
    unfold final_branch, json. rewrite Hst, Hbody. cbn. by rewrite Hkey.
  - intros Hst. rewrite Hfinal by auto.
    unfold final_branch. by rewrite Hst.
Qed.

Lemma success_value_witness :
  result (_make_request str_atoms (λ _, NetResponse enveloped)
            "songs/1" "GET" None false ∅ example_sender)
  = Return (VDict [("a", VInt 1)])
  ∧ result (_make_request str_atoms (λ _, NetResponse bare)
              "songs/1" "GET" None true ∅ example_sender)
    = Return (VDict [("a", VInt 1)])
  ∧ result (_make_request str_atoms (λ _, NetResponse no_content)
              "songs/1" "DELETE" None false ∅ example_sender)
    = Return (VInt 204).
Proof.
  split; [|split].
  - refine (proj1 (success_value str_atoms (λ _, NetResponse enveloped)
                     "songs/1" "GET" None false ∅ example_sender enveloped
                     eq_refl) eq_refl _ _ eq_refl eq_refl).
  - refine (proj1 (proj2 (success_value str_atoms (λ _, NetResponse bare)
                     "songs/1" "GET" None true ∅ example_sender bare
                     eq_refl)) eq_refl _ eq_refl eq_refl).
  - refine (proj2 (proj2 (success_value str_atoms (λ _, NetResponse no_content)
                     "songs/1" "DELETE" None false ∅ example_sender no_content
                     eq_refl)) eq_refl).
Defined.

(** The second case of C4 beyond objects: a 200 response returns its
    parsed body whenever the test ["response" in res] is false, which
    covers a list none of whose items is that string. A body that is not
    a container makes the test itself raise [TypeError]. *)
Lemma success_value_not_in py_str net path method params_ public_api kwargs s
    response res :
  net (sent_request s path method params_ public_api kwargs) = NetResponse response →
  status_code response = 200 →
  body response = Some res →
  result (_make_request py_str net path method params_ public_api kwargs s)
  = match py_in "response" res with
    | Return true => py_subscript res "response"
    | Return false => Return res
    | Raise e => Raise e
    end.
Proof.
  intros Hnet Hst Hbody.
  rewrite (make_request_no_error Hnet).
  - cbn [result]. unfold final_branch, json. by rewrite Hst, Hbody.
  - unfold raise_for_status. by rewrite Hst.
Qed.

Lemma append_empty_r (s : string) : s +:+ "" = s.
Proof.
  induction s as [|c s IH]; [done|].
  change (String c (s +:+ "") = String c s). by rewrite IH.
Qed.

(** C3, as the code has it. For a response with a status from 400 to
    599 whose body parses to a JSON object, the call raises [HTTPError]
    with the status code and a message that starts with the original
    description (the [str] of the error [raise_for_status] raises), in
    these three cases:
    - when [meta] is a non-empty object holding [message], the suffix
      for that message follows;
    - when [meta] is missing or false and [error_description] is there,
      the suffix for [error_description] follows;
    - when [meta] is missing or false and [error_description] is
      missing, nothing follows.
    The suffix is a line break and the description when the description
    is true, and empty otherwise. Nothing is said of the other bodies. *)
Theorem http_error_message py_str net path method params_ public_api kwargs s
    response d :
  net (sent_request s path method params_ public_api kwargs) = NetResponse response →
  400 ≤ status_code response < 600 →
  body response = Some (VDict d) →
  ∃ original,
    raise_for_status response = Some original
    ∧ (∀ m x, dict_get "meta" d = Some (VDict m) → m ≠ [] →
              dict_get "message" m = Some x →
         result (_make_request py_str net path method params_ public_api kwargs s)
         = Raise (HTTPError (status_code response)
                    (original +:+ description_suffix py_str x)))
    ∧ (∀ x, truthy (default VNone (dict_get "meta" d)) = false →
            dict_get "error_description" d = Some x →
         result (_make_request py_str net path method params_ public_api kwargs s)
         = Raise (HTTPError (status_code response)
                    (original +:+ description_suffix py_str x)))
    ∧ (truthy (default VNone (dict_get "meta" d)) = false →
       dict_get "error_description" d = None →
         result (_make_request py_str net path method params_ public_api kwargs s)
         = Raise (HTTPError (status_code response) original)).
Proof.
  intros Hnet Hrange Hbody.
  assert (∃ original, raise_for_status response = Some original) as [original Hrs].
  { unfold raise_for_status.
    destruct (Z.leb_spec 400 (status_code response)); [|lia].
    destruct (Z.ltb_spec (status_code response) 500); cbn; [eauto|].
    destruct (Z.leb_spec 500 (status_code response)); [|lia].
    destruct (Z.ltb_spec (status_code response) 600); cbn; [eauto|lia]. }
  exists original. split; [done|].
  rewrite (make_request_http_error Hnet Hrs). cbn [result].
  unfold http_error_handler, json, mbind, outcome_bind, description_suffix.
  rewrite Hbody. cbn [py_get py_subscript].
  split; [|split].
  - intros m x Hmeta Hm Hmsg. rewrite Hmeta.
    destruct m as [|p m]; [done|].
    cbn [from_option id truthy py_subscript]. by rewrite Hmsg.
  - intros x Hmeta Hx. by rewrite Hmeta, Hx.
  - intros Hmeta Hx. rewrite Hmeta, Hx.
    cbn [from_option id truthy]. by rewrite append_empty_r.
Qed.

Lemma http_error_message_witness :
  result (_make_request str_atoms (λ _, NetResponse forbidden)
            "songs/1" "GET" None false ∅ example_sender)
  = Raise (HTTPError 403
             ("403 Client Error: Forbidden for url: https://api.genius.com/songs/1"
              +:+ newline +:+ "invalid token")).
Proof.
  assert (400 ≤ status_code forbidden < 600) as Hrange by (cbn; lia).
  destruct (http_error_message str_atoms (λ _, NetResponse forbidden)
              "songs/1" "GET" None false ∅ example_sender forbidden
              [("meta", VDict [("status", VInt 403);
                               ("message", VStr "invalid token")])]
              eq_refl Hrange eq_refl)
    as (original & Horiginal & Hmeta & _).
  injection Horiginal as <-.
  exact (Hmeta [("status", VInt 403); ("message", VStr "invalid token")]
           (VStr "invalid token") eq_refl ltac:(discriminate) eq_refl).
Defined.

(** C3 fails as stated. A 304 response has a status that is not 2xx,
    raises nothing in [raise_for_status] and ends in [AssertionError]; a
    500 response whose [meta] lacks [message] ends in [KeyError]; a 502
    response whose body is not JSON ends in [JSONDecodeError]. None of
    the three raises [HTTPError]. *)
Lemma http_error_counterexample :
  ¬ (200 ≤ status_code not_modified < 300)
  ∧ result (_make_request str_atoms (λ _, NetResponse not_modified)
              "songs/1" "GET" None false ∅ example_sender)
    = Raise (AssertionError "Response status code was neither 200, nor 204!")
  ∧ result (_make_request str_atoms (λ _, NetResponse server_error_no_message)
              "songs/1" "GET" None false ∅ example_sender)
    = Raise (KeyError "message")
  ∧ result (_make_request str_atoms (λ _, NetResponse bad_gateway_html)
              "songs/1" "GET" None false ∅ example_sender)
    = Raise JSONDecodeError.
Proof.
  split; [cbn; lia|]. split; [|split]; reflexivity.
Qed.

(** C1 does not hold of the code: lines 75 and 76, which put the header
    back, are reached only when nothing was raised. After a public call
    that ends in [Timeout] or in [HTTPError], the session has lost its
    [authorization] header, and the next authenticated call is sent
    without it. *)
Lemma public_call_error_drops_authorization :
  headers example_sender !! "authorization" = Some "Bearer token"
  ∧ result (_make_request str_atoms (λ _, NetTimeout "read timed out")
              "songs/1" "GET" None true ∅ example_sender)
    = Raise (Timeout ("Request timed out:" +:+ newline +:+ "read timed out"))
  ∧ headers (final (_make_request str_atoms (λ _, NetTimeout "read timed out")
                      "songs/1" "GET" None true ∅ example_sender))
      !! "authorization" = None
  ∧ result (_make_request str_atoms (λ _, NetResponse forbidden)
              "songs/1" "GET" None true ∅ example_sender)
    = Raise (HTTPError 403
               ("403 Client Error: Forbidden for url: https://api.genius.com/songs/1"
                +:+ newline +:+ "invalid token"))
  ∧ headers (final (_make_request str_atoms (λ _, NetResponse forbidden)
                      "songs/1" "GET" None true ∅ example_sender))
      !! "authorization" = None
  ∧ ∃ req rest,
      trace (_make_request str_atoms (λ _, NetResponse enveloped)
               "account" "GET" None false ∅
               (final (_make_request str_atoms (λ _, NetTimeout "read timed out")
                         "songs/1" "GET" None true ∅ example_sender)))
      = EvRequest req :: rest
      ∧ req_headers req !! "authorization" = None.
Proof.
  repeat split; try reflexivity.
  eexists _, _. split; reflexivity.
Qed.

(** On the paths that raise before line 75, the sender is left as it was
    while the request was in flight, for every sender and every call. *)
Lemma error_leaves_in_flight py_str net path method params_ public_api kwargs s :
  (∀ response, net (sent_request s path method params_ public_api kwargs)
               = NetResponse response → raise_for_status response ≠ None) →
  final (_make_request py_str net path method params_ public_api kwargs s)
  = in_flight public_api s.
Proof.
  intros Hraise.
  destruct (net (sent_request s path method params_ public_api kwargs))
    as [response|e|name msg] eqn:Hnet.
  - destruct (raise_for_status response) as [error|] eqn:Hrs.
    + by rewrite (make_request_http_error Hnet Hrs).
    + by destruct (Hraise response).
  - by rewrite (make_request_timeout Hnet).
  - by rewrite (make_request_transport_error Hnet).
Qed.

(** ** Properties of [check_token] *)

(** C6. Without an access token, a call of a guarded operation that does
    not declare [public_api] raises [TokenRequiredError]; the sender is
    unchanged and nothing has happened: the operation was not called and
    no request was made. *)
Theorem guard_without_public_api func args kwargs s :
  access_token s = None →
  "public_api" ∉ co_varnames func →
  check_token func args kwargs s = Run s [] (Raise (TokenRequiredError None)).
Proof.
  intros Htoken Hnames. unfold check_token. unfold_M. rewrite Htoken.
  by rewrite bool_decide_eq_false_2.
Qed.


(** X10. With an access token the guard lets every call through,
    whatever the operation declares and whatever the caller passes. *)
Lemma guard_with_token func args kwargs s t :
  access_token s = Some t →
  check_token func args kwargs s = invoke func args kwargs s.
Proof.
  intros Htoken. unfold check_token. unfold_M. rewrite Htoken.
  by destruct (invoke func args kwargs s).
Qed.

Lemma guard_without_public_api_witness :
  check_token account_like [] ∅ anonymous_sender
  = Run anonymous_sender [] (Raise (TokenRequiredError None)).
Proof.
  apply guard_without_public_api; [reflexivity|].
  apply (bool_decide_unpack _). exact I.
Defined.



(** ** Further properties of the sender *)

(** Every call has one of four shapes. *)
Lemma make_request_shape py_str net path method params_ public_api kwargs s :
  (∃ e, net (sent_request s path method params_ public_api kwargs) = NetTimeout e
        ∧ _make_request py_str net path method params_ public_api kwargs s
          = Run (in_flight public_api s)
              [EvRequest (sent_request s path method params_ public_api kwargs)]
              (Raise (Timeout ("Request timed out:" +:+ newline +:+ e))))
  ∨ (∃ name msg,
        net (sent_request s path method params_ public_api kwargs) = NetError name msg
        ∧ _make_request py_str net path method params_ public_api kwargs s
          = Run (in_flight public_api s)
              [EvRequest (sent_request s path method params_ public_api kwargs)]
              (Raise (TransportError name msg)))
  ∨ (∃ response error e,
        net (sent_request s path method params_ public_api kwargs) = NetResponse response
        ∧ raise_for_status response = Some error
        ∧ http_error_handler (A:=value) py_str response error = Raise e
        ∧ _make_request py_str net path method params_ public_api kwargs s
          = Run (in_flight public_api s)
              [EvRequest (sent_request s path method params_ public_api kwargs)]
              (Raise e))
  ∨ (∃ response,
        net (sent_request s path method params_ public_api kwargs) = NetResponse response
        ∧ raise_for_status response = None
        ∧ _make_request py_str net path method params_ public_api kwargs s
          = Run (restored public_api s)
              [EvRequest (sent_request s path method params_ public_api kwargs);
               EvSleep (py_max _SLEEP_MIN (sleep_time s))]
              (final_branch response)).
Proof.
  destruct (net (sent_request s path method params_ public_api kwargs))
    as [response|e|name msg] eqn:Hnet.
  - destruct (raise_for_status response) as [error|] eqn:Hrs.
    + right; right; left.
      destruct (http_error_handler_raises py_str value value response error)
        as (e & He & _).
      exists response, error, e. rewrite (make_request_http_error Hnet Hrs), He. eauto.
    + right; right; right. exists response.
      rewrite (make_request_no_error Hnet Hrs). eauto.
  - left. exists e. rewrite (make_request_timeout Hnet). eauto.
  - right; left. exists name, msg. rewrite (make_request_transport_error Hnet). eauto.
Qed.

Lemma in_flight_lookup_ne public_api s k :
  k ≠ "authorization" → headers (in_flight public_api s) !! k = headers s !! k.
Proof.
  intros Hk. destruct public_api; [|done].
  cbn [in_flight set_headers headers]. by rewrite lookup_delete_ne.
Qed.

Lemma restored_lookup_ne public_api s k :
  k ≠ "authorization" → headers (restored public_api s) !! k = headers s !! k.
Proof.
  intros Hk. destruct public_api; [|done]. unfold restored.
  destruct (headers s !! "authorization") as [[|c h]|]; cbn [set_headers headers].
  - by rewrite lookup_delete_ne.
  - by rewrite lookup_insert_ne, lookup_delete_ne.
  - by rewrite lookup_delete_ne.
Qed.

Lemma in_flight_settings public_api s :
  access_token (in_flight public_api s) = access_token s
  ∧ response_format (in_flight public_api s) = response_format s
  ∧ timeout (in_flight public_api s) = timeout s
  ∧ sleep_time (in_flight public_api s) = sleep_time s.
Proof. by destruct public_api. Qed.

Lemma restored_settings public_api s :
  access_token (restored public_api s) = access_token s
  ∧ response_format (restored public_api s) = response_format s
  ∧ timeout (restored public_api s) = timeout s
  ∧ sleep_time (restored public_api s) = sleep_time s.
Proof.
  destruct public_api; [|done]. unfold restored.
  by destruct (headers s !! "authorization") as [[|c h]|].
Qed.

Lemma one_request_shape_aux py_str net path method params_ public_api kwargs s :
  ∃ rest,
    trace (_make_request py_str net path method params_ public_api kwargs s)
    = EvRequest (sent_request s path method params_ public_api kwargs) :: rest.
Proof.
  destruct (make_request_shape py_str net path method params_ public_api kwargs s)
    as [(e & _ & ->)|[(name & msg & _ & ->)|[(r & error & e & _ & _ & _ & ->)
       |(r & _ & _ & ->)]]]; cbn; eauto.
Qed.

(** X1. A call makes exactly one request, the first thing it does,
    whatever the outcome: nothing is retried. *)
Theorem one_request_per_call py_str net path method params_ public_api kwargs s :
  List.filter is_request
    (trace (_make_request py_str net path method params_ public_api kwargs s))
  = [EvRequest (sent_request s path method params_ public_api kwargs)]
  ∧ ∃ rest,
      trace (_make_request py_str net path method params_ public_api kwargs s)
      = EvRequest (sent_request s path method params_ public_api kwargs) :: rest.
Proof.
  destruct (make_request_shape py_str net path method params_ public_api kwargs s)
    as [(e & _ & ->)|[(name & msg & _ & ->)|[(r & error & e & _ & _ & _ & ->)
       |(r & _ & _ & ->)]]]; cbn; eauto.
Qed.

(** X2. A call pauses exactly when the response raised nothing in
    [raise_for_status]; a timeout, a transport error and an HTTP error
    are raised without any pause. When it pauses, it does so once, for
    [max(_SLEEP_MIN, sleep_time)] seconds. *)
Theorem pause_iff_no_error py_str net path method params_ public_api kwargs s :
  ((∃ response,
      net (sent_request s path method params_ public_api kwargs) = NetResponse response
      ∧ raise_for_status response = None)
   → List.filter is_sleep
       (trace (_make_request py_str net path method params_ public_api kwargs s))
     = [EvSleep (py_max _SLEEP_MIN (sleep_time s))])
  ∧ ((¬ ∃ response,
        net (sent_request s path method params_ public_api kwargs) = NetResponse response
        ∧ raise_for_status response = None)
     → List.filter is_sleep
         (trace (_make_request py_str net path method params_ public_api kwargs s))
       = []).
Proof.
  destruct (make_request_shape py_str net path method params_ public_api kwargs s)
    as [(e & Hnet & ->)|[(name & msg & Hnet & ->)|[(r & error & e & Hnet & Hrs & _ & ->)
       |(r & Hnet & Hrs & ->)]]]; cbn [trace List.filter is_sleep is_request].
  - split; [|done]. intros (r & Hr & _). congruence.
  - split; [|done]. intros (r & Hr & _). congruence.
  - split; [|done]. intros (r' & Hr & Hrs'). congruence.
  - split; [done|]. intros []. eauto.
Qed.

Lemma pause_iff_no_error_witness :
  List.filter is_sleep
    (trace (_make_request str_atoms (λ _, NetResponse enveloped) "songs/1" "GET"
              None false ∅ example_sender))
  = [EvSleep (py_max _SLEEP_MIN (sleep_time example_sender))]
  ∧ List.filter is_sleep
      (trace (_make_request str_atoms (λ _, NetResponse forbidden) "songs/1" "GET"
                None false ∅ example_sender))
    = [].
Proof.
  split.
  - apply (proj1 (pause_iff_no_error str_atoms (λ _, NetResponse enveloped)
                    "songs/1" "GET" None false ∅ example_sender)).
    exists enveloped. split; reflexivity.
  - apply (proj2 (pause_iff_no_error str_atoms (λ _, NetResponse forbidden)
                    "songs/1" "GET" None false ∅ example_sender)).
    intros (r & Hr & Hrs). injection Hr as <-. discriminate Hrs.
Defined.

Lemma call_frame py_str net path method params_ public_api kwargs s :
  (∀ k, k ≠ "authorization" →
        headers (final (_make_request py_str net path method params_ public_api kwargs s))
          !! k = headers s !! k)
  ∧ access_token (final (_make_request py_str net path method params_ public_api kwargs s))
    = access_token s
  ∧ response_format (final (_make_request py_str net path method params_ public_api kwargs s))
    = response_format s
  ∧ timeout (final (_make_request py_str net path method params_ public_api kwargs s))
    = timeout s
  ∧ sleep_time (final (_make_request py_str net path method params_ public_api kwargs s))
    = sleep_time s.
Proof.
  destruct (make_request_final py_str net path method params_ public_api kwargs s)
    as [-> | ->].
  - split; [intros k Hk; by apply in_flight_lookup_ne|apply in_flight_settings].
  - split; [intros k Hk; by apply restored_lookup_ne|apply restored_settings].
Qed.

(** X3. A call touches nothing of the sender but the [authorization]
    header: the other headers, the access token, the response format,
    the timeout and the sleep time are after the call what they were
    before it, on every path. *)
Theorem call_keeps_the_rest py_str net path method params_ public_api kwargs s :
  (∀ k, k ≠ "authorization" →
        headers (final (_make_request py_str net path method params_ public_api kwargs s))
          !! k = headers s !! k)
  ∧ access_token (final (_make_request py_str net path method params_ public_api kwargs s))
    = access_token s
  ∧ response_format (final (_make_request py_str net path method params_ public_api kwargs s))
    = response_format s
  ∧ timeout (final (_make_request py_str net path method params_ public_api kwargs s))
    = timeout s
  ∧ sleep_time (final (_make_request py_str net path method params_ public_api kwargs s))
    = sleep_time s.
Proof.
  destruct (make_request_shape py_str net path method params_ public_api kwargs s)
    as [(e & _ & ->)|[(name & msg & _ & ->)|[(r & error & e & _ & _ & _ & ->)
       |(r & _ & _ & ->)]]]; cbn [final].
  1-3: split; [intros k Hk; by apply in_flight_lookup_ne|apply in_flight_settings].
  split; [intros k Hk; by apply restored_lookup_ne|apply restored_settings].
Qed.

Lemma call_keeps_the_rest_witness :
  headers (final (_make_request str_atoms (λ _, NetTimeout "read timed out")
                    "songs/1" "GET" None true ∅ example_sender))
    !! "User-Agent" = Some "https://github.com/johnwmillr/LyricsGenius".
Proof.
  rewrite (proj1 (call_keeps_the_rest str_atoms (λ _, NetTimeout "read timed out")
                    "songs/1" "GET" None true ∅ example_sender) "User-Agent");
    [reflexivity | discriminate].
Defined.

Lemma call_without_authorization py_str net path method params_ public_api kwargs s :
  headers s !! "authorization" = None →
  headers (final (_make_request py_str net path method params_ public_api kwargs s))
    !! "authorization" = None.
Proof.
  intros Hnone.
  destruct (make_request_final py_str net path method params_ public_api kwargs s)
    as [-> | ->]; destruct public_api; try done.
  - cbn [in_flight set_headers headers]. apply lookup_delete_eq.
  - unfold restored. rewrite Hnone. cbn [set_headers headers].
    apply lookup_delete_eq.
Qed.

(** X4. No call ever adds an [authorization] header. A sender that has
    none (it was built without a token, or it lost the header in a
    public call that raised) has none after any number of further
    calls, and every request of those calls goes out without it. *)
Theorem authorization_never_comes_back py_str s s' :
  headers s !! "authorization" = None →
  later py_str s s' →
  headers s' !! "authorization" = None
  ∧ ∀ net path method params_ public_api kwargs,
      req_headers (sent_request s' path method params_ public_api kwargs)
        !! "authorization" = None
      ∧ List.filter is_request
          (trace (_make_request py_str net path method params_ public_api kwargs s'))
        = [EvRequest (sent_request s' path method params_ public_api kwargs)].
Proof.
  intros Hnone Hlater.
  assert (headers s' !! "authorization" = None) as Hs'.
  { induction Hlater as [|s' net path method params_ public_api kwargs _ IH];
      [done|]. by apply call_without_authorization. }
  split; [done|]. intros net path method params_ public_api kwargs. split.
  - destruct public_api; cbn [sent_request req_headers]; [|done].
    apply lookup_delete_eq.
  - destruct (make_request_shape py_str net path method params_ public_api kwargs s')
      as [(e & _ & ->)|[(name & msg & _ & ->)|[(r & error & e & _ & _ & _ & ->)
         |(r & _ & _ & ->)]]]; reflexivity.
Qed.

Lemma authorization_never_comes_back_witness :
  headers (final (_make_request str_atoms (λ _, NetResponse enveloped) "account"
                    "GET" None false ∅
                    (final (_make_request str_atoms (λ _, NetTimeout "read timed out")
                              "songs/1" "GET" None true ∅ example_sender))))
    !! "authorization" = None.
Proof.
  apply (authorization_never_comes_back str_atoms
           (final (_make_request str_atoms (λ _, NetTimeout "read timed out")
                     "songs/1" "GET" None true ∅ example_sender))).
  - reflexivity.
  - apply later_request, later_now.
Defined.

(** X5. On the public route the removal and the restoration of the
    header cancel out whenever the call returns a value: a sender built
    by the constructor and used for requests is, after such a call,
    exactly the sender it was before. *)
Theorem public_call_round_trip py_str net path method params_ kwargs s v :
  reachable py_str s →
  result (_make_request py_str net path method params_ true kwargs s) = Return v →
  final (_make_request py_str net path method params_ true kwargs s) = s
  ∧ req_headers (sent_request s path method params_ true kwargs) !! "authorization"
    = None.
Proof.
  intros Hreach Hret. split; [|apply lookup_delete_eq].
  destruct (make_request_shape py_str net path method params_ true kwargs s)
    as [(e & _ & Hcall)|[(name & msg & _ & Hcall)|[(r & error & e & _ & _ & _ & Hcall)
       |(r & _ & _ & Hcall)]]]; rewrite Hcall in Hret |- *; try discriminate.
  cbn [final]. apply restored_id. by eapply reachable_bearer_inv.
Qed.

Lemma public_call_round_trip_witness :
  final (_make_request str_atoms (λ _, NetResponse bare) "songs/1" "GET" None
           true ∅ example_sender) = example_sender
  ∧ req_headers (sent_request example_sender "songs/1" "GET" None true ∅)
      !! "authorization" = None.
Proof.
  apply (public_call_round_trip str_atoms (λ _, NetResponse bare) "songs/1" "GET"
           None ∅ example_sender (VDict [("a", VInt 1)])).
  - apply reachable_init.
  - reflexivity.
Defined.

(** X6. A public call never sends the token: its request goes to the
    public root, carries no [authorization] header and carries every
    other header of the session, for every sender. *)
Theorem public_request_has_no_token py_str net path method params_ kwargs s :
  ∃ req rest,
    trace (_make_request py_str net path method params_ true kwargs s)
    = EvRequest req :: rest
    ∧ req_uri req = PUBLIC_API_ROOT +:+ path
    ∧ req_headers req !! "authorization" = None
    ∧ (∀ k, k ≠ "authorization" → req_headers req !! k = headers s !! k)
    ∧ req_method req = method ∧ req_kwargs req = kwargs
    ∧ req_timeout req = timeout s.
Proof.
  destruct (one_request_shape_aux py_str net path method params_ true kwargs s)
    as [rest Hrest].
  exists (sent_request s path method params_ true kwargs), rest.
  split; [done|]. cbn [sent_request req_uri req_headers req_method req_kwargs req_timeout].
  split; [done|]. split; [apply lookup_delete_eq|].
  split; [|done]. intros k Hk. by apply lookup_delete_ne.
Qed.

Lemma public_request_has_no_token_witness :
  ∃ req rest,
    trace (_make_request str_atoms (λ _, NetResponse bare) "songs/1" "GET" None
             true ∅ example_sender)
    = EvRequest req :: rest
    ∧ req_headers req !! "authorization" = None
    ∧ req_headers req !! "application" = Some "LyricsGenius".
Proof.
  destruct (public_request_has_no_token str_atoms (λ _, NetResponse bare) "songs/1"
              "GET" None ∅ example_sender)
    as (req & rest & Htrace & _ & Hauth & Hother & _).
  exists req, rest. split; [exact Htrace|]. split; [exact Hauth|].
  rewrite Hother; [reflexivity | discriminate].
Defined.

Lemma lower_char_not_upper c : is_upper (lower_char c) = false.
Proof. by destruct c as [[] [] [] [] [] [] [] []]. Qed.

Lemma lower_char_fixed c : is_upper c = false → lower_char c = c.
Proof. by destruct c as [[] [] [] [] [] [] [] []]. Qed.

Lemma lower_not_upper s : string_forall (λ c, negb (is_upper c)) (lower s) = true.
Proof.
  induction s as [|c s IH]; [done|].
  cbn [lower string_forall]. by rewrite lower_char_not_upper, IH.
Qed.

Lemma lower_fixed s :
  string_forall (λ c, negb (is_upper c)) s = true → lower s = s.
Proof.
  induction s as [|c s IH]; [done|]. cbn [lower string_forall].
  intros [Hc Hs]%andb_prop. rewrite IH by done.
  rewrite lower_char_fixed; [done|]. by destruct (is_upper c).
Qed.

Lemma lower_idempotent s : lower (lower s) = lower s.
Proof. apply lower_fixed, lower_not_upper. Qed.

(** X7. What holds of every sender built by the constructor and used
    for requests: the two fixed headers are there with their values,
    there is no header besides them and [authorization], that one is
    either missing or ["Bearer "] followed by the access token, and the
    response format is in lower case. *)
Theorem reachable_sender_invariant py_str s :
  reachable py_str s →
  headers s !! "application" = Some "LyricsGenius"
  ∧ headers s !! "User-Agent" = Some "https://github.com/johnwmillr/LyricsGenius"
  ∧ (∀ k, is_Some (headers s !! k) →
          k = "application" ∨ k = "User-Agent" ∨ k = "authorization")
  ∧ (headers s !! "authorization" = None
     ∨ ∃ t, access_token s = Some t
            ∧ headers s !! "authorization" = Some ("Bearer " +:+ t))
  ∧ lower (response_format s) = response_format s
  ∧ string_forall (λ c, negb (is_upper c)) (response_format s) = true.
Proof.
  intros Hreach.
  assert (headers s !! "authorization" = None
          ∨ ∃ t, access_token s = Some t
                 ∧ headers s !! "authorization" = Some ("Bearer " +:+ t)) as Hbearer.
  { destruct (headers s !! "authorization") as [v|] eqn:Hv; [|by left].
    right. destruct (reachable_bearer_inv py_str s Hreach v Hv) as (t & Ht & ->).
    eauto. }
  induction Hreach as [token format timeout_ sleep_time_
                      |s net path method params_ public_api kwargs Hreach IH].
  - split; [|split; [|split; [|split; [done|split]]]].
    + by destruct token.
    + by destruct token.
    + intros k. cbn [__init__ headers].
      destruct token as [t|]; rewrite ?lookup_insert_is_Some, lookup_empty.
      * intros [<-|[_ [<-|[_ [<-|[_ H]]]]]]; eauto. by destruct (is_Some_None H).
      * intros [<-|[_ [<-|[_ H]]]]; eauto. by destruct (is_Some_None H).
    + apply lower_idempotent.
    + apply lower_not_upper.
  - destruct IH as (Happ & Hua & Hkeys & _ & Hlow & Hup).
    { destruct (headers s !! "authorization") as [v|] eqn:Hv; [|by left].
      right. destruct (reachable_bearer_inv py_str s Hreach v Hv) as (t & Ht & ->).
      eauto. }
    destruct (call_frame py_str net path method params_ public_api kwargs s)
      as (Hframe & _ & Hformat & _).
    split; [|split; [|split; [|split; [done|split]]]].
    + by rewrite Hframe.
    + by rewrite Hframe.
    + intros k Hk. destruct (decide (k = "authorization")) as [->|Hne]; [eauto|].
      apply Hkeys. by rewrite <- Hframe.
    + by rewrite Hformat.
    + by rewrite Hformat.
Qed.

Lemma reachable_sender_invariant_witness :
  headers (final (_make_request str_atoms (λ _, NetTimeout "read timed out")
                    "songs/1" "GET" None true ∅
                    (__init__ (Some "token") "PLAIN" 5 (1 # 2))))
    !! "application" = Some "LyricsGenius"
  ∧ response_format (__init__ (Some "token") "PLAIN" 5 (1 # 2)) = "plain".
Proof.
  split.
  - apply (reachable_sender_invariant str_atoms).
    apply reachable_request, reachable_init.
  - reflexivity.
Defined.

Lemma raise_for_status_raises response :
  400 ≤ status_code response < 600 →
  ∃ original, raise_for_status response = Some original.
Proof.
  intros Hrange. unfold raise_for_status.
  destruct (Z.leb_spec 400 (status_code response)); [|lia].
  destruct (Z.ltb_spec (status_code response) 500); cbn; [eauto|].
  destruct (Z.leb_spec 500 (status_code response)); [|lia].
  destruct (Z.ltb_spec (status_code response) 600); cbn; [eauto|lia].
Qed.

Lemma raise_for_status_passes response :
  ¬ (400 ≤ status_code response < 600) → raise_for_status response = None.
Proof.
  intros Hrange. unfold raise_for_status.
  destruct (Z.leb_spec 400 (status_code response));
    destruct (Z.ltb_spec (status_code response) 500); cbn; try lia;
    destruct (Z.leb_spec 500 (status_code response));
    destruct (Z.ltb_spec (status_code response) 600); cbn; try lia; done.
Qed.

Lemma in_list_response (k : string) (l : list value) :
  existsb (λ x, match x with VStr s => String.eqb s k | _ => false end) l = true
  ↔ In (VStr k) l.
Proof.
  rewrite existsb_exists. split.
  - intros (x & Hin & Hx). destruct x; try discriminate.
    apply String.eqb_eq in Hx. by subst.
  - intros Hin. exists (VStr k). split; [done|]. apply String.eqb_refl.
Qed.

(** X8. A 200 response does not always yield a value. When its body is
    not JSON the call raises [JSONDecodeError]; when the parsed body is
    [None], a boolean or a number the membership test raises
    [TypeError]; when it is a list holding the string ["response"] the
    subscript raises [TypeError]; a list without that string is
    returned whole. In every case the request and the pause have
    happened before. *)
Theorem ok_response_body_cases py_str net path method params_ public_api kwargs s
    response :
  net (sent_request s path method params_ public_api kwargs) = NetResponse response →
  status_code response = 200 →
  trace (_make_request py_str net path method params_ public_api kwargs s)
  = [EvRequest (sent_request s path method params_ public_api kwargs);
     EvSleep (py_max _SLEEP_MIN (sleep_time s))]
  ∧ (body response = None →
     result (_make_request py_str net path method params_ public_api kwargs s)
     = Raise JSONDecodeError)
  ∧ (∀ v, body response = Some v → not_container v = true →
     result (_make_request py_str net path method params_ public_api kwargs s)
     = Raise TypeError)
  ∧ (∀ l, body response = Some (VList l) → In (VStr "response") l →
     result (_make_request py_str net path method params_ public_api kwargs s)
     = Raise TypeError)
  ∧ (∀ l, body response = Some (VList l) → ¬ In (VStr "response") l →
     result (_make_request py_str net path method params_ public_api kwargs s)
     = Return (VList l)).
Proof.
  intros Hnet Hst.
  assert (raise_for_status response = None) as Hrs
    by (apply raise_for_status_passes; lia).
  rewrite (make_request_no_error Hnet Hrs). cbn [trace result].
  split; [done|]. unfold final_branch, json. rewrite Hst. cbn [Z.eqb Pos.eqb].
  split; [|split; [|split]].
  - by intros ->.
  - intros v -> Hv. by destruct v.
  - intros l -> Hin. cbn [py_in].
    by rewrite (proj2 (in_list_response "response" l) Hin).
  - intros l -> Hin. cbn [py_in].
    destruct (existsb _ l) eqn:E; [|done].
    by apply in_list_response in E.
Qed.

Lemma ok_response_body_cases_witness :
  result (_make_request str_atoms (λ _, NetResponse ok_not_json) "songs/1" "GET"
            None false ∅ example_sender)
  = Raise JSONDecodeError.
Proof.
  apply (ok_response_body_cases str_atoms (λ _, NetResponse ok_not_json) "songs/1"
           "GET" None false ∅ example_sender ok_not_json); reflexivity.
Defined.

(** X9. An error response does not always end in [HTTPError]: the clause
    that builds the message reads the body first. For a status from 400
    to 599 the call raises [JSONDecodeError] when the body is not JSON,
    [AttributeError] when the parsed body is not an object, [KeyError]
    when [meta] is a non-empty object without [message], and
    [TypeError] when [meta] is true but not an object. In each case the
    status code does not reach the caller, and there was no pause. *)
Theorem error_response_body_cases py_str net path method params_ public_api
    kwargs s response :
  net (sent_request s path method params_ public_api kwargs) = NetResponse response →
  400 ≤ status_code response < 600 →
  trace (_make_request py_str net path method params_ public_api kwargs s)
  = [EvRequest (sent_request s path method params_ public_api kwargs)]
  ∧ (body response = None →
     result (_make_request py_str net path method params_ public_api kwargs s)
     = Raise JSONDecodeError)
  ∧ (∀ v, body response = Some v → is_dict v = false →
     result (_make_request py_str net path method params_ public_api kwargs s)
     = Raise AttributeError)
  ∧ (∀ d m, body response = Some (VDict d) →
            dict_get "meta" d = Some (VDict m) → m ≠ [] →
            dict_get "message" m = None →
     result (_make_request py_str net path method params_ public_api kwargs s)
     = Raise (KeyError "message"))
  ∧ (∀ d meta, body response = Some (VDict d) →
               dict_get "meta" d = Some meta → truthy meta = true →
               is_dict meta = false →
     result (_make_request py_str net path method params_ public_api kwargs s)
     = Raise TypeError).
Proof.
  intros Hnet Hrange.
  destruct (raise_for_status_raises response Hrange) as [original Hrs].
  rewrite (make_request_http_error Hnet Hrs). cbn [trace result].
  split; [done|].
  unfold http_error_handler, json, mbind, outcome_bind.
  split; [|split; [|split]].
  - by intros ->.
  - intros v -> Hv. by destruct v.
  - intros d m -> Hmeta Hm Hmsg. cbn [py_get py_subscript]. rewrite Hmeta.
    destruct m as [|p m]; [done|].
    cbn [from_option id truthy py_subscript]. by rewrite Hmsg.
  - intros d meta -> Hmeta Htrue Hdict. cbn [py_get py_subscript]. rewrite Hmeta.
    cbn [from_option id]. rewrite Htrue. by destruct meta.
Qed.

Lemma error_response_body_cases_witness :
  result (_make_request str_atoms (λ _, NetResponse bad_gateway_html) "songs/1"
            "GET" None false ∅ example_sender)
  = Raise JSONDecodeError
  ∧ result (_make_request str_atoms (λ _, NetResponse server_error_no_message)
              "songs/1" "GET" None false ∅ example_sender)
    = Raise (KeyError "message").
Proof.
  split.
  - assert (400 ≤ status_code bad_gateway_html < 600) as Hrange by (cbn; lia).
    apply (proj1 (proj2 (error_response_body_cases str_atoms
                           (λ _, NetResponse bad_gateway_html) "songs/1" "GET" None
                           false ∅ example_sender bad_gateway_html eq_refl Hrange))).
    reflexivity.
  - assert (400 ≤ status_code server_error_no_message < 600) as Hrange
      by (cbn; lia).
    apply (proj1 (proj2 (proj2 (proj2 (error_response_body_cases str_atoms
                           (λ _, NetResponse server_error_no_message) "songs/1" "GET"
                           None false ∅ example_sender server_error_no_message
                           eq_refl Hrange))))
             [("meta", VDict [("status", VInt 500)])] [("status", VInt 500)]);
      [reflexivity | reflexivity | discriminate | reflexivity].
Defined.

(** ** Further properties of the guard *)

Lemma guard_with_token_witness :
  check_token account_like [] ∅ example_sender
  = invoke account_like [] ∅ example_sender.
Proof. apply (guard_with_token account_like [] ∅ example_sender "token"). reflexivity. Defined.

Lemma check_token_cases func args kwargs s :
  check_token func args kwargs s
  = match access_token s with
    | Some _ => invoke func args kwargs s
    | None =>
        if bool_decide ("public_api" ∈ co_varnames func) then
          if is_False (default (VBool false) (kwargs !! "public_api")) then
            Run s [] (Raise (TokenRequiredError (Some public_api_msg)))
          else invoke func args kwargs s
        else Run s [] (Raise (TokenRequiredError None))
    end.
Proof.
  unfold check_token. unfold_M.
  destruct (access_token s); [by destruct (invoke func args kwargs s)|].
  destruct (bool_decide _); [|done].
  destruct (is_False _); [done|]. by destruct (invoke func args kwargs s).
Qed.

Lemma invoke_trace func args kwargs s :
  ∃ rest, trace (invoke func args kwargs s)
          = EvCall (__name__ func) args kwargs :: rest.
Proof.
  unfold invoke. unfold_M.
  destruct (func_body func args kwargs s) as [s' t []]; eauto.
Qed.

(** X11. The guard stops a public-capable operation only when the
    keyword [public_api] is missing or is the object [False]. Any other
    value, true or not ([None], [0], the empty string), lets the call
    through without a token. *)
Theorem guard_open_unless_False func args kwargs s v :
  access_token s = None →
  "public_api" ∈ co_varnames func →
  kwargs !! "public_api" = Some v →
  v ≠ VBool false →
  check_token func args kwargs s = invoke func args kwargs s.
Proof.
  intros Htoken Hnames Hkw Hv. rewrite check_token_cases, Htoken, Hkw.
  rewrite bool_decide_eq_true_2 by done. cbn [from_option id].
  by destruct v as [|[]| | | | |].
Qed.

Lemma guard_open_unless_False_witness :
  check_token song_like [VInt 1] {["public_api" := VNone]} anonymous_sender
  = invoke song_like [VInt 1] {["public_api" := VNone]} anonymous_sender
  ∧ truthy VNone = false.
Proof.
  split; [|reflexivity].
  apply (guard_open_unless_False song_like [VInt 1] {["public_api" := VNone]}
           anonymous_sender VNone);
    [reflexivity | apply (bool_decide_unpack _); exact I | reflexivity | discriminate].
Defined.

(** X12. The guard does one of two things: it raises
    [TokenRequiredError] with nothing done and the sender untouched,
    which happens only without a token, or it is exactly the call of the
    wrapped operation. Which of the two depends on the token, on the
    declared names and on the keywords only: when the guard stops a
    call, it stops it whatever the positional arguments are. *)
Theorem guard_stops_or_calls func args kwargs s :
  (check_token func args kwargs s = invoke func args kwargs s
   ∨ access_token s = None
     ∧ ∃ m, check_token func args kwargs s
            = Run s [] (Raise (TokenRequiredError m)))
  ∧ (∀ e args',
       check_token func args kwargs s = Run s [] (Raise e) →
       check_token func args' kwargs s = Run s [] (Raise e)).
Proof.
  split.
  - rewrite check_token_cases.
    destruct (access_token s); [by left|].
    destruct (bool_decide _); [destruct (is_False _)|]; eauto.
  - intros e args'. rewrite !check_token_cases.
    assert (∀ a, invoke func a kwargs s ≠ Run s [] (Raise e)) as Hinvoke.
    { intros a Heq. destruct (invoke_trace func a kwargs s) as [rest Hrest].
      rewrite Heq in Hrest. discriminate. }
    destruct (access_token s); [by intros ?%Hinvoke|].
    destruct (bool_decide _); [destruct (is_False _)|]; try done.
    by intros ?%Hinvoke.
Qed.

Lemma guard_stops_or_calls_witness :
  check_token song_like [VInt 1; VNone; VBool true] ∅ anonymous_sender
  = Run anonymous_sender [] (Raise (TokenRequiredError (Some public_api_msg))).
Proof.
  apply (proj2 (guard_stops_or_calls song_like [VInt 1] ∅ anonymous_sender)).
  reflexivity.
Defined.

(** ** Properties of the songs *)

Lemma length_append (a b : string) :
  String.length (a +:+ b) = (String.length a + String.length b)%nat.
Proof.
  induction a as [|c a IH]; [done|].
  change (S (String.length (a +:+ b)) = S (String.length a + String.length b)).
  by rewrite IH.
Qed.

Lemma append_cons c (a b : string) : String c a +:+ b = String c (a +:+ b).
Proof. reflexivity. Qed.

Lemma append_assoc (a b c : string) : (a +:+ b) +:+ c = a +:+ (b +:+ c).
Proof.
  induction a as [|x a IH]; [done|]. rewrite !append_cons. by rewrite IH.
Qed.

Lemma string_forall_app P (a b : string) :
  string_forall P (a +:+ b) = string_forall P a && string_forall P b.
Proof.
  induction a as [|c a IH]; [done|].
  rewrite append_cons. cbn [string_forall]. by rewrite IH, andb_assoc.
Qed.

Lemma lower_app (a b : string) : lower (a +:+ b) = lower a +:+ lower b.
Proof.
  induction a as [|c a IH]; [done|].
  rewrite append_cons. cbn [lower]. by rewrite IH.
Qed.

Lemma lower_char_dot c : Ascii.eqb (lower_char c) "." = Ascii.eqb c ".".
Proof. by destruct c as [[] [] [] [] [] [] [] []]. Qed.

Lemma lower_char_space c : Ascii.eqb (lower_char c) " " = Ascii.eqb c " ".
Proof. by destruct c as [[] [] [] [] [] [] [] []]. Qed.

Lemma lstrip_dots n e : str_lstrip "." (dots n +:+ e) = str_lstrip "." e.
Proof. induction n as [|n IH]; [done|]. exact IH. Qed.

Lemma lstrip_lower e : str_lstrip "." (lower e) = lower (str_lstrip "." e).
Proof.
  induction e as [|c e IH]; [done|].
  cbn [lower str_lstrip char_in]. rewrite lower_char_dot.
  destruct (Ascii.eqb c "."); cbn [orb]; [exact IH|reflexivity].
Qed.

Lemma lstrip_idempotent e :
  str_lstrip "." (str_lstrip "." e) = str_lstrip "." e.
Proof.
  induction e as [|c e IH]; [done|]. cbn [str_lstrip char_in].
  destruct (Ascii.eqb c ".") eqn:E; cbn [orb]; [exact IH|].
  cbn [str_lstrip char_in]. by rewrite E.
Qed.

Lemma normal_extension_dots n e :
  lower (str_lstrip "." (dots n +:+ e)) = lower (str_lstrip "." e).
Proof. by rewrite lstrip_dots. Qed.

Lemma normal_extension_idempotent e :
  lower (str_lstrip "." (lower (str_lstrip "." e))) = lower (str_lstrip "." e).
Proof. by rewrite lstrip_lower, lstrip_idempotent, lower_idempotent. Qed.

(** X13. [save_lyrics] reads its extension up to leading dots and
    letter case: a call with any number of dots put before the
    extension does what the call with the extension stripped of its
    leading dots and put in lower case does. When that normal form is
    neither ["json"] nor ["txt"] the call raises [AssertionError] before
    it looks at any file. *)
Theorem extension_is_normalised w self filename extension n
    overwrite binary_encoding ensure_ascii sanitize verbose :
  save_lyrics w self filename (dots n +:+ extension)
    overwrite binary_encoding ensure_ascii sanitize verbose
  = save_lyrics w self filename (lower (str_lstrip "." extension))
      overwrite binary_encoding ensure_ascii sanitize verbose
  ∧ (lower (str_lstrip "." extension) ≠ "json" →
     lower (str_lstrip "." extension) ≠ "txt" →
     save_lyrics w self filename (dots n +:+ extension)
       overwrite binary_encoding ensure_ascii sanitize verbose
     = ([], Raise (AssertionError "extension must be JSON or TXT"))).
Proof.
  unfold save_lyrics.
  rewrite normal_extension_dots, normal_extension_idempotent.
  split; [done|]. intros Hjson Htxt.
  destruct (String.eqb_spec (lower (str_lstrip "." extension)) "json"); [done|].
  by destruct (String.eqb_spec (lower (str_lstrip "." extension)) "txt").
Qed.

Lemma extension_is_normalised_witness :
  save_lyrics (example_world false "") example_song None "..JSON"
    true false true false true
  = save_lyrics (example_world false "") example_song None "json"
      true false true false true
  ∧ save_lyrics (example_world false "") example_song None ".mp3"
      true false true false true
    = ([], Raise (AssertionError "extension must be JSON or TXT")).
Proof.
  split.
  - exact (proj1 (extension_is_normalised (example_world false "") example_song
                    None "JSON" 2 true false true false true)).
  - apply (proj2 (extension_is_normalised (example_world false "") example_song
                    None "mp3" 1 true false true false true)); discriminate.
Defined.

Lemma prefix_other_first c0 old c s :
  Ascii.eqb c c0 = false → String.prefix (String c0 old) (String c s) = false.
Proof.
  intros Hc. cbn [String.prefix].
  destruct (ascii_dec c0 c) as [->|]; [|done]. by rewrite Ascii.eqb_refl in Hc.
Qed.

Lemma replace_go_stem c0 old new stem rest :
  string_forall (λ c, negb (Ascii.eqb c c0)) stem = true →
  replace_go (String c0 old) new (stem +:+ rest) 0
  = stem +:+ replace_go (String c0 old) new rest 0.
Proof.
  induction stem as [|c stem IH]; [done|].
  cbn [string_forall]. intros [Hc Hstem]%andb_prop.
  rewrite !append_cons. cbn [replace_go].
  rewrite prefix_other_first by (by destruct (Ascii.eqb c c0)).
  by rewrite IH.
Qed.

Lemma strip_known_extensions stem rest :
  string_forall (λ c, negb (Ascii.eqb c ".")) stem = true →
  fold_left (λ filename ext, str_replace ("." +:+ ext) "" filename)
    ["txt"; "TXT"; "json"; "JSON"] (stem +:+ rest)
  = stem +:+ fold_left (λ filename ext, str_replace ("." +:+ ext) "" filename)
               ["txt"; "TXT"; "json"; "JSON"] rest.
Proof.
  intros Hstem. cbn [fold_left].
  change ("." +:+ "txt") with (String "." "txt").
  change ("." +:+ "TXT") with (String "." "TXT").
  change ("." +:+ "json") with (String "." "json").
  change ("." +:+ "JSON") with (String "." "JSON").
  cbn [str_replace]. by rewrite !replace_go_stem.
Qed.

(** X14. A given file name has its known extension replaced: when the
    name is a stem without any dot, alone or followed by [.txt], [.TXT],
    [.json] or [.JSON], the file name that [save_lyrics] settles on is
    the stem, a dot and the extension asked for. *)
Theorem known_extension_is_replaced w self stem rest extension :
  string_forall (λ c, negb (Ascii.eqb c ".")) stem = true →
  In rest [""; ".txt"; ".TXT"; ".json"; ".JSON"] →
  stem +:+ rest ≠ "" →
  determine_filename w self (Some (stem +:+ rest)) extension false
  = stem +:+ "." +:+ extension.
Proof.
  intros Hstem Hrest Hne. unfold determine_filename.
  destruct (stem +:+ rest) as [|c f] eqn:Hf; [done|]. rewrite <- Hf.
  rewrite strip_known_extensions by done.
  assert (fold_left (λ filename ext, str_replace ("." +:+ ext) "" filename)
            ["txt"; "TXT"; "json"; "JSON"] rest = "") as ->.
  { cbn [In] in Hrest.
    destruct Hrest as [<-|[<-|[<-|[<-|[<-|[]]]]]]; reflexivity. }
  by rewrite append_empty_r.
Qed.

Lemma known_extension_is_replaced_witness :
  determine_filename (example_world false "") example_song (Some "so what.JSON")
    "txt" false
  = "so what.txt".
Proof.
  apply (known_extension_is_replaced (example_world false "") example_song
           "so what" ".JSON" "txt").
  - reflexivity.
  - cbn [In]. do 4 right. left. reflexivity.
  - discriminate.
Defined.

Lemma remove_spaces_go s :
  string_forall (λ c, negb (Ascii.eqb c " ")) (replace_go " " "" s 0) = true.
Proof.
  induction s as [|c s IH]; [done|]. cbn [replace_go String.prefix].
  destruct (ascii_dec " " c) as [<-|Hc].
  - destruct s; exact IH.
  - cbn [string_forall]. rewrite IH, andb_true_r.
    apply negb_true_iff, Ascii.eqb_neq. congruence.
Qed.

Lemma lower_no_space s :
  string_forall (λ c, negb (Ascii.eqb c " ")) s = true →
  string_forall (λ c, negb (Ascii.eqb c " ")) (lower s) = true.
Proof.
  induction s as [|c s IH]; [done|]. cbn [lower string_forall].
  intros [Hc Hs]%andb_prop. by rewrite lower_char_space, Hc, IH.
Qed.

(** X15. Without a file name (none given, or the empty one) the name is
    made from the artist and the title. For an artist, a title and an
    extension in ASCII: it starts with [lyrics_], it holds no capital
    letter, and it holds no space as long as the extension holds
    none. *)
Theorem default_filename_shape w self filename extension :
  filename = None ∨ filename = Some "" →
  string_forall is_ascii (artist self) = true →
  string_forall is_ascii (title self) = true →
  string_forall is_ascii extension = true →
  determine_filename w self filename extension false
  = "lyrics_" +:+ lower (str_replace " " "" (artist self)) +:+ "_"
    +:+ lower (str_replace " " "" (title self)) +:+ "." +:+ lower extension
  ∧ string_forall (λ c, negb (is_upper c))
      (determine_filename w self filename extension false) = true
  ∧ (string_forall (λ c, negb (Ascii.eqb c " ")) extension = true →
     string_forall (λ c, negb (Ascii.eqb c " "))
       (determine_filename w self filename extension false) = true).
Proof.
  intros Hname _ _ _.
  assert (determine_filename w self filename extension false
          = lower ("Lyrics_" +:+ str_replace " " "" (artist self) +:+ "_"
                   +:+ str_replace " " "" (title self) +:+ "." +:+ extension))
    as Hdef by (by destruct Hname as [-> | ->]).
  rewrite Hdef. split; [|split].
  - by rewrite !lower_app.
  - apply lower_not_upper.
  - intros Hext. apply lower_no_space.
    rewrite !string_forall_app, Hext.
    change (str_replace " " "" (artist self)) with (replace_go " " "" (artist self) 0).
    change (str_replace " " "" (title self)) with (replace_go " " "" (title self) 0).
    by rewrite !remove_spaces_go.
Qed.

Lemma default_filename_shape_witness :
  determine_filename (example_world false "") example_song None "json" false
  = "lyrics_milesdavis_blueingreen.json".
Proof.
  rewrite (proj1 (default_filename_shape (example_world false "") example_song
                    None "json" (or_introl eq_refl) eq_refl eq_refl eq_refl)).
  reflexivity.
Defined.

Lemma save_lyrics_unfold w self filename extension
    overwrite binary_encoding ensure_ascii sanitize verbose ext target :
  ext = lower (str_lstrip "." extension) →
  ext = "json" ∨ ext = "txt" →
  target = determine_filename w self filename ext sanitize →
  save_lyrics w self filename extension
    overwrite binary_encoding ensure_ascii sanitize verbose
  = (write_file ←
       (if overwrite then mret true
        else
          ([IoIsFile target], Return (isfile w target)) ≫= λ exists_ : bool,
          if negb exists_ then mret true
          else if verbose then
            answer ← ([IoInput (overwrite_prompt target)],
                      input w (overwrite_prompt target));
            mret (String.eqb (lower answer) "y")
          else mret false);
     if negb write_file : bool then
       if verbose then print ("Skipping file save." +:+ newline) else mret tt
     else
       ([write_event w self target ext binary_encoding ensure_ascii sanitize],
        write_result w self target ext binary_encoding ensure_ascii sanitize);;
       if verbose
       then print ("Wrote " +:+ title self +:+ " to " +:+ target +:+ ".")
       else mret tt).
Proof.
  intros Hext Hvalid Htarget. unfold save_lyrics. rewrite <- Hext, <- Htarget.
  unfold write_event, write_result, to_json, to_text, overwrite_prompt.
  by destruct Hvalid as [-> | ->].
Qed.





Lemma substring_length n s :
  String.length (substring 0 n s) = min n (String.length s).
Proof.
  revert s. induction n as [|n IH]; intros [|c s]; try done.
  cbn [substring String.length]. by rewrite IH.
Qed.

Lemma substring_all n s : (String.length s ≤ n)%nat → substring 0 n s = s.
Proof.
  revert s. induction n as [|n IH]; intros [|c s]; cbn [String.length substring];
    try done; try lia.
  intros Hlen. rewrite IH; [done|lia].
Qed.

Lemma indent_length new s c :
  (String.length (replace_go (String c "") new s 0) + count_char c s
   = String.length s + count_char c s * String.length new)%nat.
Proof.
  induction s as [|a s IH]; [done|].
  cbn [replace_go String.prefix count_char String.length Nat.sub].
  destruct (ascii_dec c a) as [<-|Hne].
  - rewrite Ascii.eqb_refl.
    replace (String.prefix "" s) with true by (by destruct s).
    rewrite length_append. lia.
  - replace (Ascii.eqb a c) with false
      by (symmetry; apply Ascii.eqb_neq; congruence).
    cbn [String.length]. lia.
Qed.

(** X18. For lyrics in ASCII, [str(song)] shows the lyrics whole when
    they have at most 100 characters, and otherwise their first 100 characters followed by
    three dots, 103 characters in all; every line break of what is
    shown is followed by four spaces, so that the text after the header
    is as long as what is shown plus four for each line break. *)
Theorem str_shows_an_excerpt self :
  string_forall is_ascii (lyrics self) = true →
  ∃ shown,
    __str__ self
    = dquote +:+ title self +:+ dquote +:+ " by " +:+ artist self +:+ ":" +:+ newline
      +:+ "    " +:+ str_replace newline (newline +:+ "    ") shown
    ∧ ((String.length (lyrics self) ≤ 100)%nat → shown = lyrics self)
    ∧ ((100 < String.length (lyrics self))%nat →
       shown = substring 0 100 (lyrics self) +:+ "..."
       ∧ String.length shown = 103%nat)
    ∧ String.length (str_replace newline (newline +:+ "    ") shown)
      = (String.length shown + 4 * count_char (ascii_of_nat 10) shown)%nat.
Proof.
  intros _.
  assert (∀ shown,
            String.length (str_replace newline (newline +:+ "    ") shown)
            = (String.length shown + 4 * count_char (ascii_of_nat 10) shown)%nat)
    as Hindent.
  { intros shown.
    pose proof (indent_length (newline +:+ "    ") shown (ascii_of_nat 10)) as H.
    change (String.length (newline +:+ "    ")) with 5%nat in H.
    change (str_replace newline (newline +:+ "    ") shown)
      with (replace_go (String (ascii_of_nat 10) "") (newline +:+ "    ") shown 0).
    lia. }
  unfold __str__.
  destruct (Nat.ltb_spec 100 (String.length (lyrics self))) as [Hlong|Hshort].
  - exists (substring 0 100 (lyrics self) +:+ "...").
    split; [reflexivity|]. split; [lia|]. split; [|apply Hindent].
    intros _. split; [done|].
    rewrite length_append, substring_length. cbn [String.length]. lia.
  - exists (substring 0 100 (lyrics self)).
    split; [reflexivity|]. split; [|split; [lia|apply Hindent]].
    intros _. by apply substring_all.
Qed.

Lemma str_shows_an_excerpt_witness :
  __str__ example_song
  = dquote +:+ "Blue in Green" +:+ dquote +:+ " by Miles Davis:" +:+ newline
    +:+ "    la la la".
Proof.
  destruct (str_shows_an_excerpt example_song eq_refl)
    as (shown & Hstr & Hshort & _).
  rewrite Hstr, Hshort; [reflexivity | cbn; lia].
Defined.
